(** * The RAFT notebook and the PyTorch tutorial notebook, as state-passing programs

    The two notebooks are sequences of Python cells that call into
    [torch] and [transformers].  Their own code is control flow: fixed-count
    loops, list comprehensions, prints and one checkpoint write and read.
    The embedding below keeps that control flow line by line and takes the
    third-party operations (tokenizer, forward and backward passes,
    optimizer steps, serialization) as the fields of an interface, so that
    the general statements hold for any implementation of the libraries;
    a small implementation of the interface runs the cells on concrete
    inputs. *)

From stdpp Require Import base list strings gmap sorting pretty.

Open Scope string_scope.
Open Scope list_scope.

(** ** Python exceptions and results *)

Inductive exn :=
  | TypeError (msg : string)
  | UnboundLocalError (var : string)
  | IndexError (msg : string)
  | RuntimeError (msg : string)
  | FileNotFoundError (path : string).

Inductive outcome (A : Type) :=
  | Return (a : A)
  | Raise (e : exn).
Arguments Return {A} a.
Arguments Raise {A} e.

#[global] Instance outcome_ret : MRet outcome := λ A a, Return a.
#[global] Instance outcome_bind : MBind outcome := λ A B f c,
  match c with Return a => f a | Raise e => Raise e end.

(** A cell or a function body is a computation over the interpreter state
    [W]: it returns a value or raises, and leaves a state behind in both
    cases.  There is no [try] in either notebook, so [py_bind] is the only
    way two statements compose: a raise skips the rest. *)
Definition py (W A : Type) : Type := W → outcome A * W.

#[global] Instance py_ret {W} : MRet (py W) := λ A a w, (Return a, w).
#[global] Instance py_bind {W} : MBind (py W) := λ A B f c w,
  match c w with
  | (Return a, w') => f a w'
  | (Raise e, w') => (Raise e, w')
  end.

Definition lift {W A} (r : outcome A) : py W A := λ w, (r, w).
Definition raise {W A} (e : exn) : py W A := lift (Raise e).

(** [for x in xs: body], with the local variables the body assigns as [S]. *)
Fixpoint for_in {W A S} (xs : list A) (body : A → S → py W S) (s : S) : py W S :=
  match xs with
  | [] => mret s
  | x :: xs' => s' ← body x s; for_in xs' body s'
  end.

(** [range(n)] for a Python int [n]: empty when [n <= 0]. *)
Definition range (n : Z) : list Z := Z.of_nat <$> seq 0 (Z.to_nat n).

(** A float literal of the source, [digits * 10 ^ exp10]. *)
Record literal := Lit { digits : Z; exp10 : Z }.

(** ** The library interface *)

(** What the notebooks use of [torch] and [transformers].  A forward pass
    takes the module's [training] flag and the global random generator:
    dropout layers draw from the generator when the flag is set. *)
Class Torch := {
  params : Type;            (* the tensors of an nn.Module, with their .grad *)
  optim : Type;             (* the state of an optimizer *)
  generator : Type;         (* the state of the global random generator *)
  scalar : Type;            (* a float *)
  loss_tensor : Type;       (* a 0-d tensor with its autograd graph *)
  encoding : Type;          (* what the tokenizer returns *)
  scalar_leb : scalar → scalar → bool;
  repr : scalar → string;
  tokenizer : list string → outcome encoding;
  tokenizer1 : string → outcome encoding;
  logits : params → bool → encoding → generator → outcome (list scalar) * generator;
  mse_loss : params → bool → encoding → list literal → generator →
             outcome loss_tensor * generator;
  lm_loss : params → bool → encoding → generator → outcome loss_tensor * generator;
  item : loss_tensor → scalar;
  backward : loss_tensor → params → outcome params;
  zero_grad : params → params;
  AdamW : literal → optim;
  step : optim → params → outcome (optim * params);
}.

(** ** Tensors of rank 0 and 1 *)

Inductive tensor (A : Type) :=
  | Tensor0 (x : A)
  | Tensor1 (xs : list A).
Arguments Tensor0 {A} x.
Arguments Tensor1 {A} xs.

(** [t.squeeze()] on a tensor of shape (n, 1), given as its column: every
    dimension of size 1 goes, so a single row leaves a 0-d tensor. *)
Definition squeeze {A} (column : list A) : tensor A :=
  match column with
  | [x] => Tensor0 x
  | _ => Tensor1 column
  end.

(** [for i in t]: a 0-d tensor is not iterable. *)
Definition iter {A} (t : tensor A) : outcome (list A) :=
  match t with
  | Tensor0 _ => Raise (TypeError "iteration over a 0-d tensor")
  | Tensor1 xs => Return xs
  end.

(** [samples[i]] on a Python list with a non-negative index. *)
Definition getitem {A} (l : list A) (i : nat) : outcome A :=
  match l !! i with
  | Some x => Return x
  | None => Raise (IndexError "list index out of range")
  end.

Section argsort.
Context {A : Type} (leb : A → A → bool).

(** The order of [descending=True] on (index, value) pairs. *)
Definition desc (a b : nat * A) : Prop := leb b.2 a.2 = true.

#[global] Instance desc_dec a b : Decision (desc a b).
Proof. unfold desc. apply _. Defined.

Definition enumerate (xs : list A) : list (nat * A) := zip (seq 0 (length xs)) xs.

Definition sort_desc (xs : list A) : list (nat * A) := merge_sort desc (enumerate xs).

(** [torch.argsort(t, descending=True)]: the indices that sort [t]. *)
Definition argsort (t : tensor A) : tensor nat :=
  match t with
  | Tensor0 _ => Tensor0 0
  | Tensor1 xs => Tensor1 (sort_desc xs).*1
  end.
End argsort.

(** ** The RAFT notebook *)

(** The two module-level model objects a function can be handed. *)
Inductive model_ref := reward_model | generative_model.

Section raft.
Context {T : Torch}.

(** An [nn.Module] object: its tensors and its [training] flag. *)
Record nn_module := NnModule { weights : params; training : bool }.

(** What an execution leaves behind: the calls of the three functions,
    the library calls that compute a loss or update weights, and the
    lines printed. *)
Inductive event :=
  | EvGenerate (prompt : string) (num_samples : Z)
  | EvRank (samples : list string)
  | EvFineTune (model : model_ref) (dataset : list string)
  | EvLoss (model : model_ref) (sample : string) (loss : loss_tensor)
  | EvStep (model : model_ref)
  | EvPrint (line : string).

(** The interpreter state of the notebook: the globals that are objects
    with state, the random generator, and the trace. *)
Record world := World {
  reward : nn_module;
  generative : nn_module;
  optimizer : optim;
  rng : generator;
  trace : list event;
}.

Definition model (m : model_ref) (w : world) : nn_module :=
  match m with reward_model => reward w | generative_model => generative w end.

Definition set_model (m : model_ref) (v : nn_module) (w : world) : world :=
  match m with
  | reward_model => World v (generative w) (optimizer w) (rng w) (trace w)
  | generative_model => World (reward w) v (optimizer w) (rng w) (trace w)
  end.

Definition set_optimizer (o : optim) (w : world) : world :=
  World (reward w) (generative w) o (rng w) (trace w).

Definition set_rng (g : generator) (w : world) : world :=
  World (reward w) (generative w) (optimizer w) g (trace w).

Definition log (e : event) : py world unit :=
  λ w, (Return (), World (reward w) (generative w) (optimizer w) (rng w) (trace w ++ [e])).

Definition print (line : string) : py world unit := log (EvPrint line).

Definition get_model (m : model_ref) : py world nn_module := λ w, (Return (model m w), w).

Definition put_weights (m : model_ref) (p : params) : py world unit :=
  λ w, (Return (), set_model m (NnModule p (training (model m w))) w).

(** [m.train()] *)
Definition train (m : model_ref) : py world unit :=
  λ w, (Return (), set_model m (NnModule (weights (model m w)) true) w).

(** A library call that draws from the global generator. *)
Definition with_rng {A} (f : generator → outcome A * generator) : py world A :=
  λ w, let '(r, g) := f (rng w) in (r, set_rng g w).

(** [loss.backward()] into the tensors of [m]. *)
Definition run_backward (m : model_ref) (l : loss_tensor) : py world unit :=
  net ← get_model m;
  p ← lift (backward l (weights net));
  put_weights m p.

(** [opt.step()] for an optimizer built on the parameters of [m]. *)
Definition run_step (m : model_ref) (opt : optim) : py world optim :=
  net ← get_model m;
  r ← lift (step opt (weights net));
  put_weights m r.2;;
  log (EvStep m);;
  mret r.1.

(** *** Cell 1: the reward model and its three training epochs *)

Definition data : list (string * string * literal) :=
  [ ("What is AI?", "AI stands for Artificial Intelligence.", Lit 9 (-1));
    ("What is deep learning?", "Deep learning is a subset of machine learning.", Lit 8 (-1));
    ("Tell me a joke.", "Why did the chicken cross the road?", Lit 6 (-1)) ].

Definition reward_epoch (inputs : encoding) (labels : list literal) (epoch : Z) (_ : ()) :
    py world () :=
  opt ← (λ w, (Return (optimizer w), w));
  net ← get_model reward_model;
  put_weights reward_model (zero_grad (weights net));;
  net ← get_model reward_model;
  loss ← with_rng (mse_loss (weights net) (training net) inputs labels);
  run_backward reward_model loss;;
  opt' ← run_step reward_model opt;
  (λ w, (Return (), set_optimizer opt' w));;
  print ("Epoch " +:+ pretty (epoch + 1)%Z +:+ ", Loss: " +:+ repr (item loss)).

Definition cell1 : py world () :=
  inputs ← lift (tokenizer ((λ d, d.1.2) <$> data));
  let labels := (λ d, d.2) <$> data in
  (λ w, (Return (), set_optimizer (AdamW (Lit 5 (-5))) w));;
  train reward_model;;
  for_in (range 3) (reward_epoch inputs labels) ().

(** *** Cell 2: generate, rank, fine-tune *)

Definition generate_samples (prompt : string) (num_samples : option Z) :
    py world (list string) :=
  let num_samples := default 5%Z num_samples in
  log (EvGenerate prompt num_samples);;
  mret ((λ i, "Generated response " +:+ pretty i +:+ " for " +:+ prompt)
          <$> range num_samples).

(** The scoring lines of [rank_samples]: tokenizer, forward pass of the
    global reward model under [no_grad], [squeeze]. *)
Definition score_samples (samples : list string) : py world (tensor scalar) :=
  inputs ← lift (tokenizer samples);
  net ← get_model reward_model;
  rewards ← with_rng (logits (weights net) (training net) inputs);
  mret (squeeze rewards).

Definition rank_samples (samples : list string) : py world (list string) :=
  log (EvRank samples);;
  rewards ← score_samples samples;
  order ← lift (iter (argsort scalar_leb rewards));
  lift (mapM (getitem samples) order).

(** The locals of [fine_tune_model] that its loops assign: [loss] is
    unbound until the inner loop has run once. *)
Record locals := Locals { optimizer_ : optim; loss_ : option loss_tensor }.

Definition fine_tune_sample (m : model_ref) (sample : string) (loc : locals) :
    py world locals :=
  inputs ← lift (tokenizer1 sample);
  net ← get_model m;
  loss ← with_rng (lm_loss (weights net) (training net) inputs);
  log (EvLoss m sample loss);;
  run_backward m loss;;
  opt ← run_step m (optimizer_ loc);
  mret (Locals opt (Some loss)).

Definition fine_tune_epoch (m : model_ref) (dataset : list string) (epoch : Z)
    (loc : locals) : py world locals :=
  loc ← for_in dataset (fine_tune_sample m) loc;
  match loss_ loc with
  | None =>
      raise (UnboundLocalError "loss")
  | Some loss =>
      print ("Epoch " +:+ pretty (epoch + 1)%Z +:+ " Fine-tuning loss: "
               +:+ repr (item loss));;
      mret loc
  end.

(** Returns [None], here [()]. *)
Definition fine_tune_model (m : model_ref) (dataset : list string) : py world () :=
  log (EvFineTune m dataset);;
  train m;;
  let optimizer := AdamW (Lit 1 (-5)) in
  for_in (range 3) (fine_tune_epoch m dataset) (Locals optimizer None);;
  mret ().

Definition prompt : string := "What is artificial intelligence?".

Definition raft_iteration (iteration : Z) (_ : ()) : py world () :=
  print ("Iteration " +:+ pretty (iteration + 1)%Z +:+ "...");;
  samples ← generate_samples prompt None;
  ranked ← rank_samples samples;
  let ranked_samples := take 3 ranked in
  fine_tune_model generative_model ranked_samples.

Definition raft_loop : py world () := for_in (range 5) raft_iteration ().

(** The calls of the three functions in a trace, in order. *)
Definition is_call (e : event) : bool :=
  match e with
  | EvGenerate _ _ | EvRank _ | EvFineTune _ _ => true
  | _ => false
  end.
Definition calls (t : list event) : list event := filter (λ e, is_call e = true) t.

Definition stdout (t : list event) : list string :=
  omap (λ e, match e with EvPrint s => Some s | _ => None end) t.
End raft.

(** ** Notions used to state the properties *)

(** The element of [samples] an (index, score) pair of the sort points at,
    with the score. *)
Definition pick {A B} (samples : list B) (ix : nat * A) : option (B * A) :=
  (λ s, (s, ix.2)) <$> samples !! ix.1.

(** Contracts of the library that some properties rest on. *)

(** A sequence classifier with one label returns one row per sample. *)
Definition logits_shape (T : Torch) : Prop :=
  ∀ samples enc p b g col g',
    tokenizer samples = Return enc →
    logits p b enc g = (Return col, g') →
    length col = length samples.

(** The comparison of the sort is a total preorder (no NaN among the scores). *)
Definition scalar_order (T : Torch) : Prop :=
  (∀ x y, scalar_leb x y = true ∨ scalar_leb y x = true)
  ∧ (∀ x y z, scalar_leb x y = true → scalar_leb y z = true → scalar_leb x z = true).

(** In evaluation mode a forward pass neither reads nor advances the
    generator: dropout is the identity. *)
Definition eval_deterministic (T : Torch) : Prop :=
  ∀ p enc g1 g2, (logits p false enc g1).1 = (logits p false enc g2).1.

Section shapes.
Context {T : Torch}.

(** What one sample of the inner loop of [fine_tune_model] leaves in the
    trace: the loss computed for it, then the optimizer step. *)
Definition sample_events (m : model_ref) (sample : string) (l : loss_tensor) :
    list event :=
  [EvLoss m sample l; EvStep m].

(** One pass over [dataset], where [row] lists the losses computed. *)
Definition pass_events (m : model_ref) (dataset : list string)
    (row : list loss_tensor) : list event :=
  concat (zip_with (sample_events m) dataset row).

(** The line printed at the end of epoch number [epoch] (from 0) when the
    variable [loss] holds [l]. *)
Definition epoch_line (epoch : Z) (l : loss_tensor) : string :=
  "Epoch " +:+ pretty (epoch + 1)%Z +:+ " Fine-tuning loss: " +:+ repr (item l).

(** The five samples every iteration of the RAFT loop generates. *)
Definition raft_samples : list string :=
  (λ i, "Generated response " +:+ pretty i +:+ " for " +:+ prompt) <$> range 5.

(** The calls of one iteration that fine-tunes on [top]. *)
Definition iteration_calls (top : list string) : list event :=
  [EvGenerate prompt 5; EvRank raft_samples; EvFineTune generative_model top].


(** A run of consecutive iterations of the RAFT loop, numbered from [k],
    that takes the state [w] to the state [w'], every iteration
    returning: after its print the iteration generates in the state it
    is in, ranks what it generated in the state generation left, and
    fine-tunes the generative model on the first three of what this
    ranking returned, in the state the ranking left; the next iteration
    starts where the fine-tuning ended.  [rankings] lists what the
    ranking of each iteration returned. *)
Inductive iterations_run : nat → list (list string) → world → world → Prop :=
  | iterations_nil k w :
      iterations_run k [] w w
  | iterations_cons k ranked rankings w w1 w2 w3 w' :
      generate_samples prompt None
        (print ("Iteration " +:+ pretty (Z.of_nat k + 1)%Z +:+ "...") w).2
      = (Return raft_samples, w1) →
      rank_samples raft_samples w1 = (Return ranked, w2) →
      fine_tune_model generative_model (take 3 ranked) w2 = (Return (), w3) →
      iterations_run (S k) rankings w3 w' →
      iterations_run k (ranked :: rankings) w w'.
End shapes.

(** ** A small implementation of the interface

    A one-weight classifier and language model, used to run the notebook
    on concrete inputs.  Its classifier has a dropout layer of rate 1/2
    before the output: in evaluation mode a row scores weight times token
    count; in training mode each row is zeroed or doubled by a coin drawn
    from the generator, a linear congruential generator modulo 16.  An
    optimizer step raises once the weight has reached 50, the way a
    device runs out of memory. *)

Definition toy_next (g : N) : N := ((5 * g + 3) mod 16)%N.

Fixpoint toy_dropout (p : Z) (enc : list Z) (g : N) : list Z * N :=
  match enc with
  | [] => ([], g)
  | n :: enc' =>
      let '(rest, g') := toy_dropout p enc' (toy_next g) in
      ((if N.odd g then 0 else 2 * p * n)%Z :: rest, g')
  end.

Definition toy_logits (p : Z) (training : bool) (enc : list Z) (g : N) :
    outcome (list Z) * N :=
  if training then let '(col, g') := toy_dropout p enc g in (Return col, g')
  else (Return ((λ n, p * n)%Z <$> enc), g).

Definition toy_tokenizer (samples : list string) : outcome (list Z) :=
  match samples with
  | [] => Raise (IndexError "list index out of range")
  | _ => Return ((λ s, Z.of_nat (String.length s)) <$> samples)
  end.

Definition toy_loss (p : Z) (enc : list Z) (g : N) : outcome Z * N :=
  (Return (foldr Z.add 0%Z enc - p)%Z, toy_next g).

Definition toy_step (o : nat) (p : Z) : outcome (nat * Z) :=
  if (p <? 50)%Z then Return (S o, (p + 1)%Z)
  else Raise (RuntimeError "out of memory").

#[global] Instance toy : Torch := {|
  params := Z;
  optim := nat;
  generator := N;
  scalar := Z;
  loss_tensor := Z;
  encoding := list Z;
  scalar_leb := Z.leb;
  repr := pretty;
  tokenizer := toy_tokenizer;
  tokenizer1 := λ s, Return [Z.of_nat (String.length s)];
  logits := toy_logits;
  mse_loss := λ p _ enc _ g, toy_loss p enc g;
  lm_loss := λ p _ enc g, toy_loss p enc g;
  item := id;
  backward := λ _ p, Return p;
  zero_grad := id;
  AdamW := λ _, 0;
  step := toy_step;
|}.

(** The state after loading both models: [from_pretrained] returns a module
    in evaluation mode. *)
Definition toy_start : world (T := toy) :=
  World (NnModule 1%Z false) (NnModule 0%Z false) 0 0%N [].


(** ** The PyTorch tutorial notebook: the checkpoint cells *)

Inductive dtype := float16 | float32 | float64 | int64.

(** A tensor: its element type, its shape and the bit patterns of its
    elements. *)
Record ftensor := FTensor { element : dtype; shape : list nat; bits : list Z }.

(** What the two cells use of [torch], none of it notebook code.
    [torch.save] and [torch.load] go through the framework's own
    serialization: [blob] is the content of a file.  [load_into p sd] is
    what [load_state_dict] does to the tensors [p] of a module given the
    dictionary [sd]: the tensors it leaves behind and whether it raises.
    It is the library's business which shapes it accepts, how it
    converts element types, and what it has already copied when it
    raises. *)
Class Pickle := {
  blob : Type;
  dump : gmap string ftensor → blob;
  load : blob → outcome (gmap string ftensor);
  load_into : gmap string ftensor → gmap string ftensor →
              outcome () * gmap string ftensor;
}.

Section checkpoint.
Context {P : Pickle}.

(** The [model] global of the notebook, a [SimpleNN]. *)
Record net := Net { parameters : gmap string ftensor; net_training : bool }.

Record nb_world := NbWorld { nb_model : net; files : gmap string blob }.

(** [model.state_dict()] *)
Definition state_dict : py nb_world (gmap string ftensor) :=
  λ w, (Return (parameters (nb_model w)), w).

(** [torch.save(obj, path)] *)
Definition torch_save (obj : gmap string ftensor) (path : string) : py nb_world () :=
  λ w, (Return (), NbWorld (nb_model w) (<[path := dump obj]> (files w))).

(** [torch.load(path)] *)
Definition torch_load (path : string) : py nb_world (gmap string ftensor) :=
  λ w, match files w !! path with
       | Some b => (load b, w)
       | None => (Raise (FileNotFoundError path), w)
       end.

(** [model.load_state_dict(sd)]: the tensors of the module are updated in
    place, also when the call raises. *)
Definition load_state_dict (sd : gmap string ftensor) : py nb_world () :=
  λ w, let m := nb_model w in
       let '(r, p) := load_into (parameters m) sd in
       (r, NbWorld (Net p (net_training m)) (files w)).

(** [model.eval()] *)
Definition eval : py nb_world () :=
  λ w, (Return (), NbWorld (Net (parameters (nb_model w)) false) (files w)).

Definition save_cell : py nb_world () :=
  sd ← state_dict;
  torch_save sd "model.pth".

Definition load_cell : py nb_world () :=
  sd ← torch_load "model.pth";
  load_state_dict sd;;
  eval.
End checkpoint.

(** A serialization that keeps the dictionary as it is, and a load that
    replaces the tensors of the module by those of the dictionary. *)
#[global] Instance toy_pickle : Pickle := {|
  blob := gmap string ftensor;
  dump := id;
  load := Return;
  load_into := λ _ sd, (Return (), sd);
|}.

Definition toy_net : net :=
  Net {[ "fc1.bias" := FTensor float32 [2] [1065353216; 0]%Z;
         "fc2.bias" := FTensor float32 [1] [3212836864]%Z ]} true.

(** ** Observations on a trace of the RAFT notebook *)

(** The other of the two model objects. *)
Definition other (m : model_ref) : model_ref :=
  match m with reward_model => generative_model | generative_model => reward_model end.

Section observations.
Context {T : Torch}.

(** The models whose optimizer was stepped, in order. *)
Definition stepped (t : list event) : list model_ref :=
  omap (λ e, match e with EvStep m => Some m | _ => None end) t.

(** The samples a loss was computed for, in order. *)
Definition trained_on (t : list event) : list string :=
  omap (λ e, match e with EvLoss _ s _ => Some s | _ => None end) t.

(** The line cell 1 prints at the end of epoch number [epoch] (from 0)
    when the loss of the epoch is [l]. *)
Definition reward_line (epoch : Z) (l : loss_tensor) : string :=
  "Epoch " +:+ pretty (epoch + 1)%Z +:+ ", Loss: " +:+ repr (item l).

(** The four lines iteration number [k] (from 0) of the RAFT loop
    prints when the three epochs of its fine-tuning report [ls]. *)
Definition iteration_output (k : nat) (ls : loss_tensor * loss_tensor * loss_tensor) :
    list string :=
  [ "Iteration " +:+ pretty (Z.of_nat k + 1)%Z +:+ "...";
    epoch_line 0 ls.1.1; epoch_line 1 ls.1.2; epoch_line 2 ls.2 ].
End observations.

(** ** The PyTorch tutorial notebook: the training cell *)

(** What the training cell uses of [torch]: the forward pass of the
    module on the training batch followed by the criterion, the backward
    pass into the [.grad] tensors, the Adam step, and the formatting of a
    float with four decimals.  [SimpleNN] has no dropout, so the forward
    pass reads the parameters only. *)
Class Trainer := {
  adam : Type;
  gradients : Type;
  batch_loss : Type;
  Adam : literal → adam;
  no_gradients : gradients;
  forward_loss : gmap string ftensor → outcome batch_loss;
  accumulate : batch_loss → gradients → outcome gradients;
  adam_step : adam → gradients → gmap string ftensor → outcome (adam * gmap string ftensor);
  format_4f : batch_loss → string;
}.

Inductive train_event :=
  | TrStep
  | TrPrint (line : string).

#[global] Instance train_event_eq_dec : EqDecision train_event.
Proof. solve_decision. Defined.

Section training_cell.
Context {P : Pickle} {R : Trainer}.

(** The notebook state the training cell works on: the [model] and the
    files, the gradients, the [optimizer] global, and what the cell did. *)
Record train_world := TrainWorld {
  notebook : nb_world;
  grads : gradients;
  nb_optimizer : adam;
  train_trace : list train_event;
}.

(** [optimizer.zero_grad()] *)
Definition zero_grad_cell : py train_world () :=
  λ w, (Return (), TrainWorld (notebook w) no_gradients (nb_optimizer w) (train_trace w)).

(** [criterion(model(x_train), y_train)] *)
Definition forward_cell : py train_world batch_loss :=
  λ w, (forward_loss (parameters (nb_model (notebook w))), w).

(** [loss.backward()] *)
Definition backward_cell (loss : batch_loss) : py train_world () :=
  λ w, match accumulate loss (grads w) with
       | Return g => (Return (), TrainWorld (notebook w) g (nb_optimizer w) (train_trace w))
       | Raise e => (Raise e, w)
       end.

(** [optimizer.step()]: the parameters of [model] are updated in place. *)
Definition step_cell : py train_world () :=
  λ w, let m := nb_model (notebook w) in
       match adam_step (nb_optimizer w) (grads w) (parameters m) with
       | Return (o, p) =>
           (Return (),
            TrainWorld (NbWorld (Net p (net_training m)) (files (notebook w)))
                       (grads w) o (train_trace w ++ [TrStep]))
       | Raise e => (Raise e, w)
       end.

Definition train_print (line : string) : py train_world () :=
  λ w, (Return (),
        TrainWorld (notebook w) (grads w) (nb_optimizer w) (train_trace w ++ [TrPrint line])).

(** The line of epoch number [epoch] (from 1). *)
Definition progress_line (epoch num_epochs : Z) (loss : batch_loss) : string :=
  "Epoch [" +:+ pretty epoch +:+ "/" +:+ pretty num_epochs +:+ "], Loss: "
    +:+ format_4f loss.

Definition train_epoch (num_epochs : Z) (epoch : Z) (_ : ()) : py train_world () :=
  zero_grad_cell;;
  loss ← forward_cell;
  backward_cell loss;;
  step_cell;;
  if decide ((epoch + 1) `mod` 10 = 0)%Z
  then train_print (progress_line (epoch + 1) num_epochs loss)
  else mret ().

Definition train_loop (num_epochs : Z) : py train_world () :=
  for_in (range num_epochs) (train_epoch num_epochs) ().

(** The cell as written: [num_epochs = 100]. *)
Definition train_cell : py train_world () := train_loop 100.

Definition train_steps (t : list train_event) : nat :=
  length (filter (λ e, e = TrStep) t).

Definition train_stdout (t : list train_event) : list string :=
  omap (λ e, match e with TrPrint s => Some s | TrStep => None end) t.
End training_cell.

(** A trainer that counts: the loss is the number of steps taken so far. *)
#[global] Instance toy_trainer : Trainer := {|
  adam := nat;
  gradients := nat;
  batch_loss := nat;
  Adam := λ _, 0;
  no_gradients := 0;
  forward_loss := λ p, Return (size p);
  accumulate := λ l g, Return (l + g);
  adam_step := λ o g p, Return (S o, p);
  format_4f := pretty;
|}.

Definition toy_train_start : train_world :=
  TrainWorld (NbWorld toy_net ∅) 0 0 [].

(** * Properties *)

(** ** Sequencing *)

Section sequencing.
Context {W : Type}.

Lemma bind_return {A B} (c : py W A) (f : A → py W B) w a w1 :
  c w = (Return a, w1) → (c ≫= f) w = f a w1.
Proof. intros H. unfold mbind, py_bind. by rewrite H. Qed.

Lemma bind_return_eq {A B} (c : py W A) (f : A → py W B) w a w1 r :
  c w = (Return a, w1) → f a w1 = r → (c ≫= f) w = r.
Proof. intros H <-. by apply bind_return. Qed.


Lemma bind_return_inv {A B} (c : py W A) (f : A → py W B) w b w2 :
  (c ≫= f) w = (Return b, w2) →
  ∃ a w1, c w = (Return a, w1) ∧ f a w1 = (Return b, w2).
Proof.
  unfold mbind, py_bind. destruct (c w) as [[a|e] w1]; intros H.
  - by exists a, w1.
  - discriminate.
Qed.

Lemma for_in_app {A S} (xs ys : list A) (body : A → S → py W S) s w :
  for_in (xs ++ ys) body s w = (for_in xs body s ≫= for_in ys body) w.
Proof.
  revert s w. induction xs as [|x xs IH]; intros s w; simpl.
  - done.
  - unfold mbind, py_bind in *. destruct (body x s w) as [[s'|e] w']; [apply IH|done].
Qed.
End sequencing.

Lemma range_of_nat (n : nat) : range (Z.of_nat n) = Z.of_nat <$> seq 0 n.
Proof. unfold range. by rewrite Nat2Z.id. Qed.

Lemma range_succ (n : nat) : range (Z.of_nat (S n)) = range (Z.of_nat n) ++ [Z.of_nat n].
Proof. rewrite !range_of_nat, seq_S, fmap_app. done. Qed.

(** ** Ranking: the index sort and the list comprehension *)

Section ranking.
Context {A B : Type} (leb : A → A → bool).

Lemma sort_desc_perm (xs : list A) : sort_desc leb xs ≡ₚ enumerate xs.
Proof. apply merge_sort_Permutation. Qed.

Lemma pick_enumerate_from (pre samples : list B) (xs : list A) :
  length samples = length xs →
  omap (pick (pre ++ samples)) (zip (seq (length pre) (length xs)) xs) = zip samples xs.
Proof.
  revert pre samples. induction xs as [|x xs IH]; intros pre [|s ss] Hlen;
    simplify_eq/=; try done.
  unfold pick at 1. simpl. rewrite list_lookup_middle by done. simpl. f_equal.
  specialize (IH (pre ++ [s]) ss). rewrite length_app, Nat.add_1_r in IH.
  rewrite <-(assoc_L (++)) in IH. by apply IH.
Qed.

Lemma pick_enumerate (samples : list B) (xs : list A) :
  length samples = length xs →
  omap (pick samples) (enumerate xs) = zip samples xs.
Proof. apply (pick_enumerate_from []). Qed.

Lemma enumerate_bound (xs : list A) (ix : nat * A) :
  ix ∈ enumerate xs → ix.1 < length xs.
Proof.
  destruct ix as [i x]. intros H%elem_of_zip_l. apply elem_of_seq in H. simpl. lia.
Qed.

Lemma mapM_getitem (samples : list B) (ixs : list (nat * A)) :
  Forall (λ ix, ix.1 < length samples) ixs →
  mapM (getitem samples) ixs.*1 = Return (omap (pick samples) ixs).*1
  ∧ (omap (pick samples) ixs).*2 = ixs.*2.
Proof.
  induction 1 as [|[i x] ixs Hi _ [IH1 IH2]]; [done|].
  apply lookup_lt_is_Some_2 in Hi as [s Hs]. simpl in Hs.
  assert (Hg : getitem samples i = Return s) by (unfold getitem; by rewrite Hs).
  assert (Hp : pick samples (i, x) = Some (s, x)) by (unfold pick; simpl; by rewrite Hs).
  change (mapM (getitem samples) ((i, x) :: ixs).*1)
    with (y ← getitem samples i; k ← mapM (getitem samples) ixs.*1; mret (y :: k)).
  change (omap (pick samples) ((i, x) :: ixs))
    with (match pick samples (i, x) with
          | Some y => y :: omap (pick samples) ixs
          | None => omap (pick samples) ixs
          end).
  rewrite Hg, IH1, Hp. split; [done|]. cbn [fmap list_fmap snd]. f_equal. exact IH2.
Qed.

(** The list comprehension over the sorted indices succeeds and returns
    the samples reordered, each still with the score it was given. *)
Lemma ranking_perm (samples : list B) (xs : list A) :
  length samples = length xs →
  ∃ ranked, mapM (getitem samples) (sort_desc leb xs).*1 = Return ranked
    ∧ zip ranked (sort_desc leb xs).*2 ≡ₚ zip samples xs
    ∧ ranked ≡ₚ samples.
Proof.
  intros Hlen.
  destruct (mapM_getitem samples (sort_desc leb xs)) as [Hm Hs].
  { apply Forall_forall. intros ix Hix. rewrite Hlen. apply enumerate_bound.
    by rewrite <-(sort_desc_perm xs). }
  assert (Hp : omap (pick samples) (sort_desc leb xs) ≡ₚ zip samples xs).
  { rewrite sort_desc_perm. by rewrite pick_enumerate. }
  eexists. split; [exact Hm|]. split.
  - rewrite <-Hs, zip_fst_snd. exact Hp.
  - rewrite Hp. rewrite fst_zip by lia. done.
Qed.

(** With a total and transitive order, the scores come out non-increasing. *)
Lemma ranking_sorted (xs : list A) :
  (∀ x y, leb x y = true ∨ leb y x = true) →
  (∀ x y z, leb x y = true → leb y z = true → leb x z = true) →
  StronglySorted (λ a b, leb b a = true) (sort_desc leb xs).*2.
Proof.
  intros Htotal Htrans.
  apply (StronglySorted_fmap snd (desc leb)); [by intros [] []|].
  apply StronglySorted_merge_sort.
  - intros a b c Hab Hbc. unfold desc in *. eauto.
  - intros a b. unfold desc. destruct (Htotal a.2 b.2); auto.
Qed.
End ranking.

(** ** The RAFT notebook *)

Ltac py_unfold :=
  unfold mbind, py_bind, mret, py_ret, raise, lift, log, print, get_model,
    put_weights, train, with_rng in *.

Section raft_generate_rank.
Context {T : Torch}.

(** C2. [generate_samples(p, n)] returns the [n] placeholder strings
    "Generated response i for p", i = 0 .. n-1, in order; the default
    count is 5; the value is the same in every state of the models and
    of the random generator, and none of them is touched. *)
Theorem generate_samples_placeholders (p : string) (n : nat) (w : world) :
  let expected :=
    (λ i : nat, "Generated response " +:+ pretty (Z.of_nat i) +:+ " for " +:+ p)
      <$> seq 0 n in
  let w' := (generate_samples p (Some (Z.of_nat n)) w).2 in
  (generate_samples p (Some (Z.of_nat n)) w).1 = Return expected
  ∧ length expected = n
  ∧ (∀ i, i < n →
       expected !! i
       = Some ("Generated response " +:+ pretty (Z.of_nat i) +:+ " for " +:+ p))
  ∧ (∀ w2 : world, (generate_samples p (Some (Z.of_nat n)) w2).1 = Return expected)
  ∧ generate_samples p None w = generate_samples p (Some 5%Z) w
  ∧ reward w' = reward w ∧ generative w' = generative w ∧ rng w' = rng w.
Proof.
  intros expected w'.
  assert (Hv : ∀ w2 : world,
             (generate_samples p (Some (Z.of_nat n)) w2).1 = Return expected).
  { intros w2. unfold generate_samples. py_unfold. simpl.
    rewrite range_of_nat, <-list_fmap_compose. done. }
  repeat split; try done.
  - unfold expected. by rewrite length_fmap, length_seq.
  - intros i Hi. unfold expected. rewrite list_lookup_fmap, lookup_seq_lt by done. done.
Qed.

(** C9. [rank_samples] leaves both models as they were, weights and
    mode, whatever it returns or raises; so does the optimizer. *)
Theorem rank_samples_frame (samples : list string) (w : world) :
  let w' := (rank_samples samples w).2 in
  reward w' = reward w ∧ generative w' = generative w
  ∧ weights (reward w') = weights (reward w)
  ∧ weights (generative w') = weights (generative w)
  ∧ optimizer w' = optimizer w.
Proof.
  unfold rank_samples, score_samples. py_unfold. simpl.
  destruct (tokenizer samples) as [enc|e]; simpl; [|done].
  destruct (logits _ _ enc (rng w)) as [[col|e] g]; simpl; [|done].
  destruct (iter _) as [order|e]; [|done].
  by destruct (mapM (getitem samples) order).
Qed.

(** X1. The result of [rank_samples] when scoring succeeds on two samples or
    more: the samples reordered, each with its own score, the scores
    non-increasing. *)
Lemma rank_samples_sorted (samples : list string) (w : world) enc rewards g' :
  logits_shape T → scalar_order T →
  (2 ≤ length samples)%nat →
  tokenizer samples = Return enc →
  logits (weights (reward w)) (training (reward w)) enc (rng w) = (Return rewards, g') →
  ∃ ranked scores,
    (rank_samples samples w).1 = Return ranked
    ∧ ranked ≡ₚ samples
    ∧ zip ranked scores ≡ₚ zip samples rewards
    ∧ StronglySorted (λ a b, scalar_leb b a = true) scores.
Proof.
  intros Hshape [Htotal Htrans] Hlen Htok Hlog.
  pose proof (Hshape _ _ _ _ _ _ _ Htok Hlog) as Hcol.
  destruct (ranking_perm scalar_leb samples rewards) as (ranked & Hm & Hz & Hp);
    [done|].
  exists ranked, (sort_desc scalar_leb rewards).*2.
  split; [|split; [done|split; [done|by apply ranking_sorted]]].
  unfold rank_samples, score_samples. py_unfold. simpl. rewrite Htok. simpl.
  rewrite Hlog. simpl.
  destruct rewards as [|x [|y rest]]; simpl in Hcol; try lia.
  simpl. simpl in Hm. by rewrite Hm.
Qed.

(** C1. On a single sample the scoring leaves a 0-d tensor, and the list
    comprehension over its argsort raises: [rank_samples] returns nothing
    for an input of length 1. *)
Theorem rank_samples_single_raises (s : string) (w : world) enc rewards g' :
  logits_shape T →
  tokenizer [s] = Return enc →
  logits (weights (reward w)) (training (reward w)) enc (rng w) = (Return rewards, g') →
  (rank_samples [s] w).1 = Raise (TypeError "iteration over a 0-d tensor").
Proof.
  intros Hshape Htok Hlog.
  pose proof (Hshape _ _ _ _ _ _ _ Htok Hlog) as Hcol.
  unfold rank_samples, score_samples. py_unfold. simpl. rewrite Htok. simpl.
  rewrite Hlog. simpl.
  destruct rewards as [|x [|y rest]]; simpl in Hcol; try lia. done.
Qed.
End raft_generate_rank.

(** ** Fine-tuning *)

Section raft_fine_tune.
Context {T : Torch}.

Lemma fine_tune_sample_trace m sample loc w loc' w' :
  fine_tune_sample m sample loc w = (Return loc', w') →
  ∃ l, trace w' = trace w ++ sample_events m sample l ∧ loss_ loc' = Some l.
Proof.
  unfold fine_tune_sample, run_backward, run_step. py_unfold. intros H.
  repeat (case_match; simplify_eq/=).
  eexists. split; [|done]. destruct m; simpl; by rewrite <-(assoc_L (++)).
Qed.

Lemma fine_tune_pass_trace m dataset loc w loc' w' :
  for_in dataset (fine_tune_sample m) loc w = (Return loc', w') →
  ∃ row, length row = length dataset
    ∧ trace w' = trace w ++ pass_events m dataset row
    ∧ loss_ loc' = from_option Some (loss_ loc) (last row).
Proof.
  revert loc w. induction dataset as [|s dataset IH]; intros loc w H.
  - simpl in H. unfold mret, py_ret in H. simplify_eq.
    exists []. split; [done|]. split; [|done].
    unfold pass_events. simpl. by rewrite app_nil_r.
  - simpl in H. apply bind_return_inv in H as (loc1 & w1 & H1 & H2).
    apply fine_tune_sample_trace in H1 as (l & Ht1 & Hl1).
    apply IH in H2 as (row & Hlen & Ht & Hl).
    exists (l :: row). split; [simpl; by rewrite Hlen|]. split.
    + rewrite Ht, Ht1. unfold pass_events. simpl. by rewrite <-(assoc_L (++)).
    + rewrite Hl, Hl1, last_cons. by destruct (last row).
Qed.

Lemma fine_tune_epoch_trace m dataset epoch loc w loc' w' :
  fine_tune_epoch m dataset epoch loc w = (Return loc', w') →
  ∃ row l, length row = length dataset
    ∧ from_option Some (loss_ loc) (last row) = Some l
    ∧ trace w' = trace w ++ pass_events m dataset row ++ [EvPrint (epoch_line epoch l)]
    ∧ loss_ loc' = Some l.
Proof.
  unfold fine_tune_epoch. intros H.
  apply bind_return_inv in H as (loc1 & w1 & H1 & H2).
  apply fine_tune_pass_trace in H1 as (row & Hlen & Ht & Hl).
  destruct (loss_ loc1) as [l|] eqn:Hl1; [|by py_unfold].
  py_unfold. simplify_eq/=. exists row, l. rewrite <-Hl.
  repeat split; try done. by rewrite Ht, <-(assoc_L (++)).
Qed.

(** The whole trace of a call of [fine_tune_model] that returns: three
    passes over the dataset in its order, each one a loss and an
    optimizer step per sample, each followed by one printed line that
    reports the last loss of its pass. *)
Lemma fine_tune_model_trace m dataset w r w' :
  fine_tune_model m dataset w = (Return r, w') →
  ∃ r1 r2 r3 l1 l2 l3,
    dataset ≠ []
    ∧ length r1 = length dataset ∧ length r2 = length dataset
    ∧ length r3 = length dataset
    ∧ last r1 = Some l1 ∧ last r2 = Some l2 ∧ last r3 = Some l3
    ∧ trace w' = trace w ++ [EvFineTune m dataset]
        ++ (pass_events m dataset r1 ++ [EvPrint (epoch_line 0 l1)])
        ++ (pass_events m dataset r2 ++ [EvPrint (epoch_line 1 l2)])
        ++ (pass_events m dataset r3 ++ [EvPrint (epoch_line 2 l3)]).
Proof.
  unfold fine_tune_model. intros H.
  apply bind_return_inv in H as ([] & w1 & H1 & H).
  apply bind_return_inv in H as ([] & w2 & H2 & H).
  apply bind_return_inv in H as (loc3 & w5 & H & Hret).
  change (range 3) with [0; 1; 2]%Z in H. simpl in H.
  apply bind_return_inv in H as (loc1 & w3 & He1 & H).
  apply bind_return_inv in H as (loc2 & w4 & He2 & H).
  apply bind_return_inv in H as (loc3' & w5' & He3 & H).
  apply fine_tune_epoch_trace in He1 as (r1 & l1 & Hn1 & Hl1 & Ht1 & Hloc1).
  apply fine_tune_epoch_trace in He2 as (r2 & l2 & Hn2 & Hl2 & Ht2 & Hloc2).
  apply fine_tune_epoch_trace in He3 as (r3 & l3 & Hn3 & Hl3 & Ht3 & Hloc3).
  py_unfold. simplify_eq/=.
  assert (Hne : dataset ≠ []).
  { intros ->. by destruct r1. }
  assert (Hlast : ∀ (row : list loss_tensor) o l,
             length row = length dataset →
             from_option Some o (last row) = Some l → last row = Some l).
  { intros row o l Hn. destruct row as [|x row] using rev_ind.
    - destruct dataset; [done|discriminate].
    - by rewrite last_snoc. }
  exists r1, r2, r3, l1, l2, l3.
  repeat split; eauto.
  rewrite Ht3, Ht2, Ht1. destruct m; simpl; by rewrite <-!(assoc_L (++)).
Qed.
End raft_fine_tune.

Section raft_fine_tune_claims.
Context {T : Torch}.

(** C4. On an empty dataset no pass assigns [loss], and the print at the
    end of the first epoch raises: the call makes no optimizer step,
    prints nothing and returns nothing. *)
Theorem fine_tune_model_empty_raises (m : model_ref) (w : world) :
  (fine_tune_model m [] w).1 = Raise (UnboundLocalError "loss")
  ∧ trace (fine_tune_model m [] w).2 = trace w ++ [EvFineTune m []]
  ∧ weights (model m (fine_tune_model m [] w).2) = weights (model m w).
Proof.
  unfold fine_tune_model. change (range 3) with [0; 1; 2]%Z.
  unfold fine_tune_epoch. py_unfold. simpl. by destruct m.
Qed.

Lemma pass_events_snoc m (dataset : list string) x (row : list loss_tensor) l :
  length row = length dataset →
  pass_events m (dataset ++ [x]) (row ++ [l])
  = pass_events m dataset row ++ sample_events m x l.
Proof.
  intros Hlen. unfold pass_events.
  rewrite zip_with_app by done. by rewrite concat_app.
Qed.

Lemma stdout_app (t1 t2 : list event) : stdout (t1 ++ t2) = stdout t1 ++ stdout t2.
Proof. apply omap_app. Qed.

Lemma stdout_cons (e : event) (t : list event) :
  stdout (e :: t) = match e with EvPrint s => s :: stdout t | _ => stdout t end.
Proof. by destruct e. Qed.

Lemma stdout_pass_events m (dataset : list string) (row : list loss_tensor) :
  stdout (pass_events m dataset row) = [].
Proof.
  unfold pass_events. revert row.
  induction dataset as [|s dataset IH]; intros [|l row]; try done.
  simpl. apply IH.
Qed.

(** C10. When [fine_tune_model] returns on a dataset that ends with
    [x], each of its three printed lines reports the loss computed for
    [x] in that epoch, the last one of the pass, whatever the losses
    [r1], [r2], [r3] of the samples before it were; these three lines
    are all it prints. *)
Theorem fine_tune_reports_last_loss m (dataset : list string) x w w' :
  fine_tune_model m (dataset ++ [x]) w = (Return (), w') →
  ∃ r1 r2 r3 l1 l2 l3,
    length r1 = length dataset ∧ length r2 = length dataset
    ∧ length r3 = length dataset
    ∧ trace w' = trace w ++ [EvFineTune m (dataset ++ [x])]
        ++ (pass_events m dataset r1 ++ sample_events m x l1
              ++ [EvPrint (epoch_line 0 l1)])
        ++ (pass_events m dataset r2 ++ sample_events m x l2
              ++ [EvPrint (epoch_line 1 l2)])
        ++ (pass_events m dataset r3 ++ sample_events m x l3
              ++ [EvPrint (epoch_line 2 l3)])
    ∧ stdout (trace w')
      = stdout (trace w) ++ [epoch_line 0 l1; epoch_line 1 l2; epoch_line 2 l3].
Proof.
  intros H.
  apply fine_tune_model_trace in H
    as (r1 & r2 & r3 & l1 & l2 & l3 & _ & Hn1 & Hn2 & Hn3 & Hl1 & Hl2 & Hl3 & Ht).
  apply last_Some in Hl1 as [r1' ->]. apply last_Some in Hl2 as [r2' ->].
  apply last_Some in Hl3 as [r3' ->].
  rewrite !length_app in Hn1, Hn2, Hn3. simpl in *.
  exists r1', r2', r3', l1, l2, l3.
  split; [lia|]. split; [lia|]. split; [lia|].
  rewrite Ht, !pass_events_snoc by lia. split.
  - by rewrite <-!(assoc_L (++)).
  - by rewrite !stdout_app, stdout_cons, !stdout_app, !stdout_pass_events.
Qed.
End raft_fine_tune_claims.

(** ** The iteration driver *)

Section raft_driver.
Context {T : Torch}.

Lemma calls_app (t1 t2 : list event) : calls (t1 ++ t2) = calls t1 ++ calls t2.
Proof. apply filter_app. Qed.

Lemma calls_cons (e : event) (t : list event) :
  calls (e :: t) = if is_call e then e :: calls t else calls t.
Proof. unfold calls. rewrite filter_cons. by destruct (is_call e). Qed.

Lemma calls_pass_events m (dataset : list string) (row : list loss_tensor) :
  calls (pass_events m dataset row) = [].
Proof.
  unfold pass_events. revert row.
  induction dataset as [|s dataset IH]; intros [|l row]; try done.
  simpl. apply IH.
Qed.

Lemma generate_samples_default (w : world) :
  ∃ w1, generate_samples prompt None w = (Return raft_samples, w1)
    ∧ trace w1 = trace w ++ [EvGenerate prompt 5].
Proof. eexists. split; reflexivity. Qed.

Lemma rank_samples_trace (samples : list string) (w : world) :
  trace (rank_samples samples w).2 = trace w ++ [EvRank samples].
Proof.
  unfold rank_samples, score_samples. py_unfold. simpl.
  destruct (tokenizer samples) as [enc|e]; simpl; [|done].
  destruct (logits _ _ enc (rng w)) as [[col|e] g]; simpl; [|done].
  destruct (iter _) as [order|e]; [|done].
  by destruct (mapM (getitem samples) order).
Qed.

(** What [rank_samples] returns is its input reordered, once the
    classifier returns one row per sample. *)
Lemma rank_samples_return_perm (samples : list string) (w : world) ranked w' :
  logits_shape T →
  rank_samples samples w = (Return ranked, w') → ranked ≡ₚ samples.
Proof.
  intros Hshape. unfold rank_samples, score_samples. py_unfold. simpl.
  destruct (tokenizer samples) as [enc|e] eqn:Htok; simpl; [|done].
  destruct (logits _ _ enc (rng w)) as [[col|e] g] eqn:Hlog; simpl; [|done].
  pose proof (Hshape _ _ _ _ _ _ _ Htok Hlog) as Hcol.
  destruct (ranking_perm scalar_leb samples col) as (ranked' & Hm & _ & Hp); [done|].
  destruct col as [|x [|y rest]]; simpl.
  - simpl in Hm. rewrite Hm. by intros [= <- <-].
  - done.
  - simpl in Hm. rewrite Hm. by intros [= <- <-].
Qed.

Lemma raft_iteration_inv (iteration : Z) (w w' : world) :
  raft_iteration iteration () w = (Return (), w') →
  ∃ w1 ranked w2,
    generate_samples prompt None
      (print ("Iteration " +:+ pretty (iteration + 1)%Z +:+ "...") w).2
    = (Return raft_samples, w1)
    ∧ rank_samples raft_samples w1 = (Return ranked, w2)
    ∧ fine_tune_model generative_model (take 3 ranked) w2 = (Return (), w')
    ∧ calls (trace w') = calls (trace w) ++ iteration_calls (take 3 ranked).
Proof.
  unfold raft_iteration. intros H.
  apply bind_return_inv in H as ([] & w0 & Hprint & H).
  apply bind_return_inv in H as (samples & w1 & Hgen & H).
  apply bind_return_inv in H as (ranked & w2 & Hrank & Htune).
  destruct (generate_samples_default w0) as (w1' & Hgen' & Ht1).
  rewrite Hgen' in Hgen. simplify_eq.
  exists w1, ranked, w2.
  split; [by rewrite Hprint|]. split; [done|]. split; [done|].
  apply fine_tune_model_trace in Htune
    as (r1 & r2 & r3 & l1 & l2 & l3 & _ & _ & _ & _ & _ & _ & _ & Ht).
  pose proof (rank_samples_trace raft_samples w1) as Ht2. rewrite Hrank in Ht2.
  simpl in Ht2.
  assert (Ht0 : trace w0 = trace w ++ [EvPrint ("Iteration " +:+ pretty (iteration + 1)%Z +:+ "...")]).
  { unfold print, log in Hprint. by simplify_eq. }
  rewrite Ht, Ht2, Ht1, Ht0.
  rewrite !calls_app, !calls_pass_events, !calls_cons. simpl.
  by rewrite <-!(assoc_L (++)).
Qed.

Lemma raft_iterations_run (k n : nat) (w w' : world) :
  logits_shape T →
  for_in (Z.of_nat <$> seq k n) raft_iteration () w = (Return (), w') →
  ∃ rankings : list (list string),
    length rankings = n
    ∧ iterations_run k rankings w w'
    ∧ calls (trace w')
      = calls (trace w) ++ concat (iteration_calls <$> (take 3 <$> rankings))
    ∧ Forall (λ ranked, ranked ≡ₚ raft_samples ∧ length (take 3 ranked) = 3) rankings.
Proof.
  intros Hshape. revert k w. induction n as [|n IH]; intros k w H.
  - simpl in H. unfold mret, py_ret in H. simplify_eq.
    exists []. split; [done|]. split; [constructor|]. split; [|done].
    simpl. by rewrite app_nil_r.
  - simpl in H. apply bind_return_inv in H as ([] & w3 & Hit & Hrest).
    apply raft_iteration_inv in Hit as (w1 & ranked & w2 & Hgen & Hrank & Htune & Hc).
    apply IH in Hrest as (rankings & Hlen & Hrun & Hcalls & Hall).
    pose proof (rank_samples_return_perm _ _ _ _ Hshape Hrank) as Hp.
    exists (ranked :: rankings). split; [simpl; by rewrite Hlen|]. split; [|split].
    + by eapply iterations_cons.
    + rewrite Hcalls, Hc. simpl. by rewrite <-!(assoc_L (++)).
    + constructor; [|done]. split; [done|]. by rewrite length_take, Hp.
Qed.

(** C3. A run of the RAFT loop that returns is a run of exactly five
    iterations, each one generate, then rank, then fine-tune, every
    stage in the state the one before it left: the fine-tuning of an
    iteration is on the first three of what the ranking of that same
    iteration returned for the samples that iteration generated (three
    of the five samples), and the next iteration starts where it ended.
    The loop makes these fifteen calls and no other, for any scores and
    losses the library produces. *)
Theorem raft_loop_five_iterations (w w' : world) :
  logits_shape T →
  raft_loop w = (Return (), w') →
  ∃ rankings : list (list string),
    length rankings = 5
    ∧ iterations_run 0 rankings w w'
    ∧ calls (trace w')
      = calls (trace w) ++ concat (iteration_calls <$> (take 3 <$> rankings))
    ∧ Forall (λ ranked, ranked ≡ₚ raft_samples ∧ length (take 3 ranked) = 3) rankings.
Proof.
  intros Hshape H. by apply (raft_iterations_run 0 5).
Qed.

(** Conversely such a run is what the loop does: the state a chain of
    iterations ends in is the state the loop over them returns in, so a
    chain from [w] determines it. *)
Lemma iterations_run_loop (k : nat) (rankings : list (list string)) (w w' : world) :
  iterations_run k rankings w w' →
  for_in (Z.of_nat <$> seq k (length rankings)) raft_iteration () w = (Return (), w').
Proof.
  induction 1 as [k w|k ranked rankings w w1 w2 w3 w' Hgen Hrank Htune _ IH]; [done|].
  simpl. eapply bind_return_eq; [|exact IH].
  unfold raft_iteration. eapply bind_return_eq; [reflexivity|].
  eapply bind_return_eq; [exact Hgen|]. eapply bind_return_eq; [exact Hrank|]. exact Htune.
Qed.



End raft_driver.

(** ** Scoring and the mode of the reward model *)

Section raft_scoring.
Context {T : Torch}.

Lemma reward_epoch_training inputs labels epoch (w w' : world) :
  reward_epoch inputs labels epoch () w = (Return (), w') →
  training (reward w') = training (reward w).
Proof.
  unfold reward_epoch, run_backward, run_step. py_unfold. simpl.
  destruct (mse_loss _ _ _ _ _) as [[l|e] g]; simpl; [|done].
  destruct (backward _ _) as [p|e]; simpl; [|done].
  destruct (step _ _) as [[o p']|e]; simpl; [|done].
  by intros [= <-].
Qed.

(** Cell 1 puts the reward model in training mode and nothing in it
    takes it out again. *)
Lemma cell1_training (w w' : world) :
  cell1 w = (Return (), w') → training (reward w') = true.
Proof.
  unfold cell1. intros H.
  apply bind_return_inv in H as (inputs & w1 & H1 & H).
  apply bind_return_inv in H as ([] & w2 & H2 & H).
  apply bind_return_inv in H as ([] & w3 & H3 & H).
  change (range 3) with [0; 1; 2]%Z in H. simpl in H.
  apply bind_return_inv in H as ([] & w4 & He1 & H).
  apply bind_return_inv in H as ([] & w5 & He2 & H).
  apply bind_return_inv in H as ([] & w6 & He3 & H).
  apply reward_epoch_training in He1, He2, He3.
  py_unfold. simplify_eq/=. by rewrite He3, He2, He1.
Qed.

(** In evaluation mode the scores are a function of the samples and the
    weights: the generator does not matter. *)
Lemma score_samples_eval_pure (samples : list string) (w1 w2 : world) :
  eval_deterministic T →
  training (reward w1) = false → training (reward w2) = false →
  weights (reward w1) = weights (reward w2) →
  (score_samples samples w1).1 = (score_samples samples w2).1.
Proof.
  intros Hdet Ht1 Ht2 Hw. unfold score_samples. py_unfold. simpl.
  destruct (tokenizer samples) as [enc|e]; simpl; [|done].
  rewrite Ht1, Ht2, Hw.
  pose proof (Hdet (weights (reward w2)) enc (rng w1) (rng w2)) as Hl.
  destruct (logits _ false enc (rng w1)) as [r1 g1].
  destruct (logits _ false enc (rng w2)) as [r2 g2].
  simpl in Hl. subst r2. by destruct r1.
Qed.
End raft_scoring.

(** C6. The notebook leaves the reward model in training mode, so the
    scoring of [rank_samples] runs with dropout on: after cell 1, two
    scorings in a row of the same five samples, with the same weights,
    give different scores. *)
Theorem scoring_depends_on_generator :
  (∀ (T : Torch) (w w' : world), cell1 w = (Return (), w') → training (reward w') = true)
  ∧
  let w1 := (cell1 toy_start).2 in
  let first := score_samples raft_samples w1 in
  let second := score_samples raft_samples first.2 in
  training (reward w1) = true
  ∧ weights (reward first.2) = weights (reward w1)
  ∧ first.1 = Return (Tensor1 [0; 456; 0; 456; 0]%Z)
  ∧ second.1 = Return (Tensor1 [456; 0; 456; 0; 456]%Z)
  ∧ first.1 ≠ second.1.
Proof.
  split; [intros T w w'; apply cell1_training|].
  vm_compute. repeat split; congruence.
Qed.

(** ** The small implementation meets the contracts, and runs *)

Lemma toy_dropout_length (p : Z) (enc : list Z) (g : N) :
  length (toy_dropout p enc g).1 = length enc.
Proof.
  revert g. induction enc as [|n enc IH]; intros g; simpl; [done|].
  specialize (IH (toy_next g)). destruct (toy_dropout p enc (toy_next g)). simpl in *.
  by rewrite IH.
Qed.

Lemma toy_logits_shape : logits_shape toy.
Proof.
  intros samples enc p b g col g' Htok Hlog. simpl in *.
  unfold toy_tokenizer in Htok. unfold toy_logits in Hlog.
  assert (Henc : length enc = length samples).
  { destruct samples; simplify_eq/=. by rewrite length_fmap. }
  destruct b.
  - pose proof (toy_dropout_length p enc g) as Hd.
    destruct (toy_dropout p enc g). simplify_eq/=. congruence.
  - simplify_eq. by rewrite length_fmap.
Qed.

Lemma toy_scalar_order : scalar_order toy.
Proof. split; simpl; intros; lia. Qed.

Lemma toy_eval_deterministic : eval_deterministic toy.
Proof. done. Qed.

Lemma rank_samples_single_raises_witness :
  (rank_samples ["only"] toy_start).1 = Raise (TypeError "iteration over a 0-d tensor").
Proof.
  apply (rank_samples_single_raises "only" toy_start [4%Z] [4%Z] 0%N toy_logits_shape);
    reflexivity.
Defined.

Lemma raft_loop_five_iterations_witness :
  ∃ rankings : list (list string),
    length rankings = 5
    ∧ iterations_run 0 rankings toy_start (raft_loop toy_start).2
    ∧ calls (trace (raft_loop toy_start).2)
      = calls (trace toy_start) ++ concat (iteration_calls <$> (take 3 <$> rankings))
    ∧ Forall (λ ranked, ranked ≡ₚ raft_samples ∧ length (take 3 ranked) = 3) rankings.
Proof.
  apply (raft_loop_five_iterations toy_start (raft_loop toy_start).2 toy_logits_shape).
  vm_compute. reflexivity.
Defined.


Lemma fine_tune_reports_last_loss_witness :
  ∃ r1 r2 r3 l1 l2 l3 : Z,
    trace (fine_tune_model generative_model (["a"] ++ ["bc"]) toy_start).2
    = trace toy_start ++ [EvFineTune generative_model (["a"] ++ ["bc"])]
        ++ (sample_events generative_model "a" r1 ++ sample_events generative_model "bc" l1
              ++ [EvPrint (epoch_line 0 l1)])
        ++ (sample_events generative_model "a" r2 ++ sample_events generative_model "bc" l2
              ++ [EvPrint (epoch_line 1 l2)])
        ++ (sample_events generative_model "a" r3 ++ sample_events generative_model "bc" l3
              ++ [EvPrint (epoch_line 2 l3)]).
Proof.
  destruct (fine_tune_reports_last_loss generative_model ["a"] "bc" toy_start
              (fine_tune_model generative_model (["a"] ++ ["bc"]) toy_start).2)
    as (r1 & r2 & r3 & l1 & l2 & l3 & H1 & H2 & H3 & Ht & _).
  { vm_compute. reflexivity. }
  destruct r1 as [|a1 [|? ?]]; try discriminate H1.
  destruct r2 as [|a2 [|? ?]]; try discriminate H2.
  destruct r3 as [|a3 [|? ?]]; try discriminate H3.
  exists a1, a2, a3, l1, l2, l3. exact Ht.
Defined.

(** ** Runs on the small implementation *)

Example rank_three :
  (rank_samples ["a"; "bbb"; "cc"] toy_start).1 = Return ["bbb"; "cc"; "a"].
Proof. reflexivity. Qed.

Example generate_two :
  (generate_samples "hi" (Some 2%Z) toy_start).1
  = Return ["Generated response 0 for hi"; "Generated response 1 for hi"].
Proof. reflexivity. Qed.

Example generate_negative : (generate_samples "hi" (Some (-1)%Z) toy_start).1 = Return [].
Proof. reflexivity. Qed.

Example notebook_stdout_head :
  take 5 (stdout (trace (raft_loop (cell1 toy_start).2).2))
  = ["Epoch 1, Loss: 118"; "Epoch 2, Loss: 117"; "Epoch 3, Loss: 116";
     "Iteration 1..."; "Epoch 1 Fine-tuning loss: 55"].
Proof. vm_compute. reflexivity. Qed.

Example load_without_save :
  (load_cell (NbWorld toy_net ∅)).1 = Raise (FileNotFoundError "model.pth").
Proof. reflexivity. Qed.

(** * Further properties of the two notebooks *)

(** ** What a computation keeps *)

Section keeping.
Context {W : Type}.

Lemma bind_keeps {A B} (I : W → Prop) (c : py W A) (f : A → py W B) w :
  I (c w).2 → (∀ a w1, I w1 → I (f a w1).2) → I ((c ≫= f) w).2.
Proof.
  intros Hc Hf. unfold mbind, py_bind.
  destruct (c w) as [[a|e] w1]; simpl in *; [by apply Hf|done].
Qed.

Lemma bind_keeps_return {A B} (I : W → Prop) (c : py W A) (f : A → py W B) w a w1 :
  c w = (Return a, w1) → I (f a w1).2 → I ((c ≫= f) w).2.
Proof. intros Hc Hf. by rewrite (bind_return _ _ _ _ _ Hc). Qed.

Lemma for_in_keeps {A S} (I : W → Prop) (xs : list A) (body : A → S → py W S) :
  (∀ x s w, I w → I (body x s w).2) →
  ∀ s w, I w → I (for_in xs body s w).2.
Proof.
  intros Hbody. induction xs as [|x xs IH]; intros s w Hw; simpl; [done|].
  apply bind_keeps; [by apply Hbody|]. intros s' w1 Hw1. by apply IH.
Qed.

End keeping.

(** ** Fine-tuning: what it touches, how much it trains, how it fails *)

Section fine_tune_more.
Context {T : Torch}.

Lemma fine_tune_sample_keeps m sample loc (w0 w : world) :
  model (other m) w = model (other m) w0 ∧ optimizer w = optimizer w0
    ∧ training (model m w) = true →
  let w' := (fine_tune_sample m sample loc w).2 in
  model (other m) w' = model (other m) w0 ∧ optimizer w' = optimizer w0
    ∧ training (model m w') = true.
Proof.
  intros (Ho & Hopt & Htr). unfold fine_tune_sample, run_backward, run_step. py_unfold.
  destruct m; simpl in *;
    (destruct (tokenizer1 sample) as [enc|e]; simpl; [|done];
     destruct (lm_loss _ _ enc (rng w)) as [[l|e] g]; simpl; [|done];
     destruct (backward l _) as [p|e]; simpl; [|done];
     destruct (step _ p) as [[o p']|e]; simpl; done).
Qed.

Lemma fine_tune_model_keeps m dataset (w : world) :
  let w' := (fine_tune_model m dataset w).2 in
  model (other m) w' = model (other m) w ∧ optimizer w' = optimizer w
    ∧ training (model m w') = true.
Proof.
  pose (I := λ w', model (other m) w' = model (other m) w
                   ∧ optimizer w' = optimizer w
                   ∧ training (model m w') = true).
  change (I (fine_tune_model m dataset w).2). unfold fine_tune_model.
  eapply bind_keeps_return; [reflexivity|].
  eapply bind_keeps_return; [reflexivity|].
  apply bind_keeps; [|done].
  apply for_in_keeps; [|by destruct m]. intros epoch loc w1 Hw1.
  unfold fine_tune_epoch. apply bind_keeps.
  - apply for_in_keeps; [|done]. intros sample loc' w2. apply fine_tune_sample_keeps.
  - intros loc' w2 Hw2. by destruct (loss_ loc').
Qed.

(** X5. [fine_tune_model] works on the model it is given only: the other
    model object and the optimizer of cell 1 are the same afterwards,
    and the model it was given is left in training mode, whether the call
    returns or raises. *)
Theorem fine_tune_model_frame m dataset (w : world) :
  let w' := (fine_tune_model m dataset w).2 in
  model (other m) w' = model (other m) w
  ∧ optimizer w' = optimizer w
  ∧ training (model m w') = true.
Proof. apply fine_tune_model_keeps. Qed.

Lemma stepped_app (t1 t2 : list event) : stepped (t1 ++ t2) = stepped t1 ++ stepped t2.
Proof. apply omap_app. Qed.

Lemma trained_on_app (t1 t2 : list event) :
  trained_on (t1 ++ t2) = trained_on t1 ++ trained_on t2.
Proof. apply omap_app. Qed.

Lemma stepped_pass_events m (dataset : list string) (row : list loss_tensor) :
  length row = length dataset →
  stepped (pass_events m dataset row) = replicate (length dataset) m.
Proof.
  unfold pass_events. revert row.
  induction dataset as [|s dataset IH]; intros [|l row] Hlen; simplify_eq/=; [done|].
  f_equal. by apply IH.
Qed.

Lemma trained_on_pass_events m (dataset : list string) (row : list loss_tensor) :
  length row = length dataset →
  trained_on (pass_events m dataset row) = dataset.
Proof.
  unfold pass_events. revert row.
  induction dataset as [|s dataset IH]; intros [|l row] Hlen; simplify_eq/=; [done|].
  f_equal. by apply IH.
Qed.

(** X6. A call of [fine_tune_model] that returns had a non-empty dataset,
    computed a loss for every sample of it three times over, in the
    order of the dataset, and made one optimizer step per loss, all of
    them on the model it was given: [3 * len(dataset)] steps. *)
Theorem fine_tune_model_work m dataset (w : world) r w' :
  fine_tune_model m dataset w = (Return r, w') →
  ∃ t, trace w' = trace w ++ EvFineTune m dataset :: t
    ∧ dataset ≠ []
    ∧ trained_on t = dataset ++ dataset ++ dataset
    ∧ stepped t = replicate (3 * length dataset) m.
Proof.
  intros H. apply fine_tune_model_trace in H
    as (r1 & r2 & r3 & l1 & l2 & l3 & Hne & Hn1 & Hn2 & Hn3 & _ & _ & _ & Ht).
  eexists. split; [exact Ht|]. split; [done|].
  rewrite !trained_on_app, !stepped_app, !trained_on_pass_events,
    !stepped_pass_events by done.
  split; simpl; [by rewrite !app_nil_r|].
  rewrite !app_nil_r, <-!replicate_add. f_equal. lia.
Qed.

End fine_tune_more.

(** ** Ranking and generation: edge cases *)

Section rank_generate_more.
Context {T : Torch}.

Lemma rank_samples_keeps (samples : list string) (w : world) :
  reward (rank_samples samples w).2 = reward w
  ∧ generative (rank_samples samples w).2 = generative w
  ∧ optimizer (rank_samples samples w).2 = optimizer w.
Proof.
  unfold rank_samples, score_samples. py_unfold. simpl.
  destruct (tokenizer samples) as [enc|e]; simpl; [|done].
  destruct (logits _ _ enc (rng w)) as [[col|e] g]; simpl; [|done].
  destruct (iter _) as [order|e]; [|done].
  by destruct (mapM (getitem samples) order).
Qed.

(** X3. With the reward model in evaluation mode, and a library whose
    evaluation-mode forward pass does not draw from the generator, what
    [rank_samples] returns or raises depends on the samples and the
    reward weights only: two states with equal weights give the same
    ranking, whatever their generators and traces. *)
Theorem rank_samples_eval_pure (samples : list string) (w1 w2 : world) :
  eval_deterministic T →
  training (reward w1) = false → training (reward w2) = false →
  weights (reward w1) = weights (reward w2) →
  (rank_samples samples w1).1 = (rank_samples samples w2).1.
Proof.
  intros Hdet Ht1 Ht2 Hw. unfold rank_samples.
  pose proof (score_samples_eval_pure samples
                (log (EvRank samples) w1).2 (log (EvRank samples) w2).2 Hdet Ht1 Ht2 Hw)
    as Hs.
  py_unfold. simpl in *.
  destruct (score_samples samples _) as [[t1|e1] wa], (score_samples samples _) as [[t2|e2] wb];
    simpl in *; simplify_eq; [|done].
  destruct (iter _) as [order|e]; [|done].
  by destruct (mapM (getitem samples) order).
Qed.

Lemma append_cancel_r (a b s : string) : a +:+ s = b +:+ s → a = b.
Proof.
  assert (Hlen : ∀ a s, String.length (a +:+ s) = String.length a + String.length s).
  { clear. intros a s. induction a; simpl; [done|]. by rewrite IHa. }
  revert b. induction a as [|c a IH]; intros [|c' b] H.
  - done.
  - apply (f_equal String.length) in H. rewrite (Hlen "" s), (Hlen (String c' b) s) in H.
    simpl in H. lia.
  - apply (f_equal String.length) in H. rewrite (Hlen "" s), (Hlen (String c a) s) in H.
    simpl in H. lia.
  - simpl in H. injection H as -> H. f_equal. by apply IH.
Qed.

(** X4. [generate_samples] never raises; it returns [max(n, 0)] samples,
    none for a count of zero or below, and the samples are pairwise
    distinct, so that a ranking of them has no ties between equal
    strings. *)
Theorem generate_samples_distinct (p : string) (n : Z) (w : world) :
  ∃ samples, (generate_samples p (Some n) w).1 = Return samples
    ∧ length samples = Z.to_nat n
    ∧ ((n ≤ 0)%Z → samples = [])
    ∧ NoDup samples.
Proof.
  exists ((λ i, "Generated response " +:+ pretty i +:+ " for " +:+ p) <$> range n).
  split; [reflexivity|].
  assert (Hlen : length ((λ i, "Generated response " +:+ pretty i +:+ " for " +:+ p)
                           <$> range n) = Z.to_nat n).
  { unfold range. by rewrite !length_fmap, length_seq. }
  split; [exact Hlen|]. split.
  - intros Hn. apply nil_length_inv. rewrite Hlen. lia.
  - unfold range. apply NoDup_fmap_2.
    + intros i j H. apply (inj (String.app _)) in H.
      apply append_cancel_r in H. by apply (inj pretty) in H.
    + apply NoDup_fmap_2; [apply _|apply NoDup_seq].
Qed.
End rank_generate_more.

(** ** The RAFT loop and cell 1: what a whole run does *)

Section raft_runs.
Context {T : Torch}.

Lemma raft_iteration_keeps (iteration : Z) (w0 w : world) :
  reward w = reward w0 ∧ optimizer w = optimizer w0 →
  reward (raft_iteration iteration () w).2 = reward w0
  ∧ optimizer (raft_iteration iteration () w).2 = optimizer w0.
Proof.
  intros [Hr Ho]. unfold raft_iteration.
  eapply (bind_keeps_return (λ w', reward w' = reward w0 ∧ optimizer w' = optimizer w0));
    [reflexivity|].
  eapply (bind_keeps_return (λ w', reward w' = reward w0 ∧ optimizer w' = optimizer w0));
    [reflexivity|].
  apply (bind_keeps (λ w', reward w' = reward w0 ∧ optimizer w' = optimizer w0)).
  - split; (etrans; [apply rank_samples_keeps|done]).
  - intros ranked w1 [Hr1 Ho1].
    destruct (fine_tune_model_keeps generative_model (take 3 ranked) w1) as (Hr' & Ho' & _).
    split; (etrans; [eassumption|done]).
Qed.

(** X8. The RAFT loop never changes the reward model, neither its weights
    nor its mode, nor the optimizer of cell 1, whether it returns or
    raises: only the generative model is trained. *)
Theorem raft_loop_keeps_reward_model (w : world) :
  reward (raft_loop w).2 = reward w
  ∧ optimizer (raft_loop w).2 = optimizer w.
Proof.
  unfold raft_loop.
  apply (for_in_keeps (λ w', reward w' = reward w ∧ optimizer w' = optimizer w));
    [|done].
  intros iteration [] w1. apply raft_iteration_keeps.
Qed.

Lemma raft_iteration_trace (iteration : Z) (w w' : world) :
  raft_iteration iteration () w = (Return (), w') →
  ∃ w1 ranked w2 r1 r2 r3 l1 l2 l3,
    rank_samples raft_samples w1 = (Return ranked, w2)
    ∧ length r1 = length (take 3 ranked) ∧ length r2 = length (take 3 ranked)
    ∧ length r3 = length (take 3 ranked)
    ∧ trace w' = trace w
        ++ [EvPrint ("Iteration " +:+ pretty (iteration + 1)%Z +:+ "...");
            EvGenerate prompt 5; EvRank raft_samples;
            EvFineTune generative_model (take 3 ranked)]
        ++ (pass_events generative_model (take 3 ranked) r1 ++ [EvPrint (epoch_line 0 l1)])
        ++ (pass_events generative_model (take 3 ranked) r2 ++ [EvPrint (epoch_line 1 l2)])
        ++ (pass_events generative_model (take 3 ranked) r3 ++ [EvPrint (epoch_line 2 l3)]).
Proof.
  unfold raft_iteration. intros H.
  apply bind_return_inv in H as ([] & w0 & Hprint & H).
  apply bind_return_inv in H as (samples & w1 & Hgen & H).
  apply bind_return_inv in H as (ranked & w2 & Hrank & Htune).
  destruct (generate_samples_default w0) as (w1' & Hgen' & Ht1).
  rewrite Hgen' in Hgen. simplify_eq.
  apply fine_tune_model_trace in Htune
    as (r1 & r2 & r3 & l1 & l2 & l3 & _ & Hn1 & Hn2 & Hn3 & _ & _ & _ & Ht).
  exists w1, ranked, w2, r1, r2, r3, l1, l2, l3.
  split; [done|]. split; [done|]. split; [done|]. split; [done|].
  pose proof (rank_samples_trace raft_samples w1) as Ht2. rewrite Hrank in Ht2.
  simpl in Ht2.
  assert (Ht0 : trace w0
                = trace w ++ [EvPrint ("Iteration " +:+ pretty (iteration + 1)%Z +:+ "...")]).
  { unfold print, log in Hprint. by simplify_eq. }
  rewrite Ht, Ht2, Ht1, Ht0. by rewrite <-!(assoc_L (++)).
Qed.

Lemma raft_iterations_observed (n : nat) (w w' : world) :
  logits_shape T →
  for_in (range (Z.of_nat n)) raft_iteration () w = (Return (), w') →
  ∃ lss, length lss = n
    ∧ stdout (trace w') = stdout (trace w) ++ concat (imap iteration_output lss)
    ∧ stepped (trace w') = stepped (trace w) ++ replicate (9 * n) generative_model.
Proof.
  intros Hshape. revert w'. induction n as [|n IH]; intros w' H.
  - simpl in H. unfold mret, py_ret in H. simplify_eq.
    exists []. simpl. by rewrite !app_nil_r.
  - rewrite range_succ, for_in_app in H.
    apply bind_return_inv in H as ([] & wn & Hn & Hlast).
    apply IH in Hn as (lss & Hlen & Hout & Hsteps).
    simpl in Hlast. apply bind_return_inv in Hlast as ([] & w2 & Hit & Hret).
    unfold mret, py_ret in Hret. simplify_eq.
    apply raft_iteration_trace in Hit
      as (w1 & ranked & w3 & r1 & r2 & r3 & l1 & l2 & l3 & Hrank & Hn1 & Hn2 & Hn3 & Ht).
    assert (Htop : length (take 3 ranked) = 3).
    { rewrite length_take, (rank_samples_return_perm _ _ _ _ Hshape Hrank). done. }
    exists (lss ++ [(l1, l2, l3)]). split; [rewrite length_app; simpl; lia|].
    rewrite Ht. split.
    + rewrite !stdout_app, !stdout_cons, !stdout_pass_events, Hout.
      rewrite imap_app, concat_app. simpl. rewrite Nat.add_0_r.
      by rewrite <-!(assoc_L (++)).
    + rewrite !stepped_app, !stepped_pass_events, Hsteps, Htop by done.
      replace (9 * S (length lss)) with (9 * length lss + 9) by lia.
      rewrite replicate_add, <-!(assoc_L (++)). by do 2 f_equal.
Qed.

(** X9. What a run of the RAFT loop that returns has printed: for each of
    the five iterations in turn its line "Iteration k..." followed by
    the three epoch lines of its fine-tuning, twenty lines and no other. *)
Theorem raft_loop_stdout (w w' : world) :
  logits_shape T →
  raft_loop w = (Return (), w') →
  ∃ lss, length lss = 5
    ∧ stdout (trace w') = stdout (trace w) ++ concat (imap iteration_output lss)
    ∧ length (stdout (trace w')) = length (stdout (trace w)) + 20.
Proof.
  intros Hshape H.
  apply (raft_iterations_observed 5) in H as (lss & Hlen & Hout & _); [|done].
  exists lss. split; [done|]. split; [done|].
  rewrite Hout, length_app. f_equal.
  do 6 (destruct lss as [|? lss]; try discriminate Hlen). done.
Qed.

(** X10. A run of the RAFT loop that returns has made exactly 45 optimizer
    steps (5 iterations, 3 epochs, 3 samples), every one of them on the
    generative model. *)
Theorem raft_loop_steps (w w' : world) :
  logits_shape T →
  raft_loop w = (Return (), w') →
  stepped (trace w') = stepped (trace w) ++ replicate 45 generative_model.
Proof.
  intros Hshape H.
  by apply (raft_iterations_observed 5) in H as (lss & _ & _ & Hsteps).
Qed.

Lemma reward_epoch_trace inputs labels epoch (w w' : world) :
  reward_epoch inputs labels epoch () w = (Return (), w') →
  ∃ l, trace w' = trace w ++ [EvStep reward_model; EvPrint (reward_line epoch l)]
    ∧ generative w' = generative w.
Proof.
  unfold reward_epoch, run_backward, run_step. py_unfold. simpl.
  destruct (mse_loss _ _ _ _ _) as [[l|e] g]; simpl; [|done].
  destruct (backward _ _) as [p|e]; simpl; [|done].
  destruct (step _ _) as [[o p']|e]; simpl; [|done].
  intros [= <-]. exists l. simpl. by rewrite <-(assoc_L (++)).
Qed.

(** X11. A run of cell 1 that returns has made exactly three optimizer steps,
    all on the reward model, each followed by the line that reports the
    loss of its epoch, and has not touched the generative model. *)
Theorem cell1_trace (w w' : world) :
  cell1 w = (Return (), w') →
  ∃ l1 l2 l3,
    trace w' = trace w
      ++ [EvStep reward_model; EvPrint (reward_line 0 l1);
          EvStep reward_model; EvPrint (reward_line 1 l2);
          EvStep reward_model; EvPrint (reward_line 2 l3)]
    ∧ generative w' = generative w.
Proof.
  unfold cell1. intros H.
  apply bind_return_inv in H as (inputs & w1 & H1 & H).
  apply bind_return_inv in H as ([] & w2 & H2 & H).
  apply bind_return_inv in H as ([] & w3 & H3 & H).
  change (range 3) with [0; 1; 2]%Z in H. simpl in H.
  apply bind_return_inv in H as ([] & w4 & He1 & H).
  apply bind_return_inv in H as ([] & w5 & He2 & H).
  apply bind_return_inv in H as ([] & w6 & He3 & H).
  apply reward_epoch_trace in He1 as (l1 & Ht1 & Hg1).
  apply reward_epoch_trace in He2 as (l2 & Ht2 & Hg2).
  apply reward_epoch_trace in He3 as (l3 & Ht3 & Hg3).
  py_unfold. simplify_eq/=. exists l1, l2, l3. split.
  - rewrite Ht3, Ht2, Ht1. by rewrite <-!(assoc_L (++)).
  - by rewrite Hg3, Hg2, Hg1.
Qed.
End raft_runs.

(** ** The checkpoint cells: failures and frame *)

Section checkpoint_more.
Context {P : Pickle}.

(** X12. Without a file "model.pth" the load cell raises [FileNotFoundError]
    before it touches anything: the model keeps its parameters and its
    mode. *)
Theorem load_cell_missing_file (w : nb_world) :
  files w !! "model.pth" = None →
  load_cell w = (Raise (FileNotFoundError "model.pth"), w).
Proof.
  intros Hfile. unfold load_cell, torch_load. py_unfold. by rewrite Hfile.
Qed.

(** X15. The save cell writes "model.pth" and nothing else: the module and
    every other file are as before, and saving again without a change of
    the module in between changes nothing more. *)
Theorem save_cell_frame (w : nb_world) :
  nb_model (save_cell w).2 = nb_model w
  ∧ files (save_cell w).2 !! "model.pth" = Some (dump (parameters (nb_model w)))
  ∧ (∀ path, path ≠ "model.pth" → files (save_cell w).2 !! path = files w !! path)
  ∧ save_cell (save_cell w).2 = save_cell w.
Proof.
  unfold save_cell, state_dict, torch_save. py_unfold. simpl.
  split; [done|]. split; [by rewrite lookup_insert_eq|]. split.
  - intros path Hpath. by rewrite lookup_insert_ne.
  - by rewrite insert_insert_eq.
Qed.
End checkpoint_more.

(** ** The training cell *)

Section training_more.
Context {P : Pickle} {R : Trainer}.

Lemma train_epoch_trace (num_epochs epoch : Z) (w w' : train_world) :
  train_epoch num_epochs epoch () w = (Return (), w') →
  ∃ l, train_trace w'
       = train_trace w ++ TrStep ::
           (if decide ((epoch + 1) `mod` 10 = 0)%Z
            then [TrPrint (progress_line (epoch + 1) num_epochs l)] else [])
    ∧ files (notebook w') = files (notebook w)
    ∧ net_training (nb_model (notebook w')) = net_training (nb_model (notebook w)).
Proof.
  unfold train_epoch, zero_grad_cell, forward_cell, backward_cell, step_cell, train_print.
  py_unfold. simpl.
  destruct (forward_loss _) as [l|e]; simpl; [|done].
  destruct (accumulate l _) as [g|e]; simpl; [|done].
  destruct (adam_step _ _ _) as [[o p]|e]; simpl; [|done].
  intros H. exists l. destruct (decide _); simplify_eq/=.
  - by rewrite <-(assoc_L (++)).
  - done.
Qed.

Lemma train_steps_app (t1 t2 : list train_event) :
  train_steps (t1 ++ t2) = train_steps t1 + train_steps t2.
Proof. unfold train_steps. by rewrite filter_app, length_app. Qed.

Lemma train_steps_cons (e : train_event) (t : list train_event) :
  train_steps (e :: t)
  = (match e with TrStep => 1 | TrPrint _ => 0 end) + train_steps t.
Proof.
  unfold train_steps. rewrite filter_cons. destruct e; by case_decide.
Qed.

Lemma train_stdout_app (t1 t2 : list train_event) :
  train_stdout (t1 ++ t2) = train_stdout t1 ++ train_stdout t2.
Proof. apply omap_app. Qed.

Lemma train_prefix (num_epochs : Z) (k : nat) (w w' : train_world) :
  for_in (range (Z.of_nat k)) (train_epoch num_epochs) () w = (Return (), w') →
  ∃ losses, length losses = k / 10
    ∧ train_stdout (train_trace w')
      = train_stdout (train_trace w)
          ++ imap (λ i l, progress_line (10 * (Z.of_nat i + 1)) num_epochs l) losses
    ∧ train_steps (train_trace w') = train_steps (train_trace w) + k
    ∧ files (notebook w') = files (notebook w)
    ∧ net_training (nb_model (notebook w')) = net_training (nb_model (notebook w)).
Proof.
  revert w'. induction k as [|k IH]; intros w' H.
  - simpl in H. unfold mret, py_ret in H. simplify_eq.
    exists []. simpl. by rewrite app_nil_r, Nat.add_0_r.
  - rewrite range_succ, for_in_app in H.
    apply bind_return_inv in H as ([] & wk & Hk & Hlast).
    apply IH in Hk as (losses & Hlen & Hout & Hsteps & Hfiles & Hmode).
    simpl in Hlast. apply bind_return_inv in Hlast as ([] & w2 & Hep & Hret).
    unfold mret, py_ret in Hret. simplify_eq.
    apply train_epoch_trace in Hep as (l & Ht & Hfiles' & Hmode').
    pose proof (Nat.div_mod_eq k 10) as Hk.
    pose proof (Nat.div_mod_eq (S k) 10) as HSk.
    pose proof (Nat.mod_upper_bound k 10 ltac:(done)) as Hkb.
    pose proof (Nat.mod_upper_bound (S k) 10 ltac:(done)) as HSkb.
    destruct (decide ((Z.of_nat k + 1) `mod` 10 = 0)%Z) as [Hten|Hten].
    + assert (Hmod : S k mod 10 = 0).
      { apply Nat2Z.inj. rewrite Nat2Z.inj_mod.
        replace (Z.of_nat (S k)) with (Z.of_nat k + 1)%Z by lia. exact Hten. }
      exists (losses ++ [l]). rewrite length_app, Ht. change (length [l]) with 1.
      split; [lia|]. split; [|split; [|split; congruence]].
      * rewrite train_stdout_app, Hout, imap_app, <-(assoc_L (++)). simpl.
        by replace (10 * (Z.of_nat (length losses + 0) + 1))%Z with (Z.of_nat k + 1)%Z by lia.
      * rewrite train_steps_app, Hsteps, !train_steps_cons.
        change (train_steps []) with 0. lia.
    + assert (Hmod : S k mod 10 ≠ 0).
      { intros Hz. apply Hten. replace (Z.of_nat k + 1)%Z with (Z.of_nat (S k)) by lia.
        change 10%Z with (Z.of_nat 10). by rewrite <-Nat2Z.inj_mod, Hz. }
      exists losses. rewrite Ht.
      split; [lia|]. split; [|split; [|split; congruence]].
      * rewrite train_stdout_app, Hout. simpl. by rewrite app_nil_r.
      * rewrite train_steps_app, Hsteps, !train_steps_cons.
        change (train_steps []) with 0. lia.
Qed.

(** X16. A run of the training loop over [n] epochs that returns has made
    [n] optimizer steps and has printed one line for every tenth epoch
    and no other: [n / 10] lines, the one at position [i] (from 0) for
    epoch [10 * (i + 1)] out of [n]; it has written no file and has not
    changed the mode of the module.  The cell runs it with [n = 100]:
    ten lines, for the epochs 10, 20, ..., 100. *)
Theorem train_loop_schedule (n : nat) (w w' : train_world) :
  train_loop (Z.of_nat n) w = (Return (), w') →
  ∃ losses, length losses = n / 10
    ∧ train_stdout (train_trace w')
      = train_stdout (train_trace w)
          ++ imap (λ i l, progress_line (10 * (Z.of_nat i + 1)) (Z.of_nat n) l) losses
    ∧ train_steps (train_trace w') = train_steps (train_trace w) + n
    ∧ files (notebook w') = files (notebook w)
    ∧ net_training (nb_model (notebook w')) = net_training (nb_model (notebook w)).
Proof. apply train_prefix. Qed.
End training_more.

(** ** Runs of the further properties on the small implementations *)

Lemma rank_samples_sorted_witness :
  ∃ ranked scores,
    (rank_samples ["a"; "bbb"] toy_start).1 = Return ranked
    ∧ ranked ≡ₚ ["a"; "bbb"]
    ∧ zip ranked scores ≡ₚ zip ["a"; "bbb"] [1; 3]%Z
    ∧ StronglySorted (λ a b, scalar_leb b a = true) scores.
Proof.
  apply (rank_samples_sorted ["a"; "bbb"] toy_start [1; 3]%Z [1; 3]%Z 0%N
           toy_logits_shape toy_scalar_order); [simpl; lia|reflexivity|reflexivity].
Defined.

Lemma rank_samples_eval_pure_witness :
  (rank_samples ["a"; "bbb"; "cc"] toy_start).1
  = (rank_samples ["a"; "bbb"; "cc"]
       (World (T:=toy) (NnModule (T:=toy) 1%Z false) (NnModule (T:=toy) 7%Z true) 3 9%N [EvPrint "earlier"])).1.
Proof.
  apply (rank_samples_eval_pure ["a"; "bbb"; "cc"] toy_start
           (World (T:=toy) (NnModule (T:=toy) 1%Z false) (NnModule (T:=toy) 7%Z true) 3 9%N [EvPrint "earlier"])
           toy_eval_deterministic); reflexivity.
Defined.

Lemma fine_tune_model_work_witness :
  ∃ t, trace (fine_tune_model generative_model ["a"; "bc"] toy_start).2
       = trace toy_start ++ EvFineTune generative_model ["a"; "bc"] :: t
    ∧ ["a"; "bc"] ≠ []
    ∧ trained_on t = ["a"; "bc"] ++ ["a"; "bc"] ++ ["a"; "bc"]
    ∧ stepped t = replicate (3 * length ["a"; "bc"]) generative_model.
Proof.
  apply (fine_tune_model_work generative_model ["a"; "bc"] toy_start ()
           (fine_tune_model generative_model ["a"; "bc"] toy_start).2).
  vm_compute. reflexivity.
Defined.


Lemma raft_loop_stdout_witness :
  ∃ lss, length lss = 5
    ∧ stdout (trace (raft_loop toy_start).2)
      = stdout (trace toy_start) ++ concat (imap iteration_output lss)
    ∧ length (stdout (trace (raft_loop toy_start).2))
      = length (stdout (trace toy_start)) + 20.
Proof.
  apply (raft_loop_stdout toy_start (raft_loop toy_start).2 toy_logits_shape).
  vm_compute. reflexivity.
Defined.

Lemma raft_loop_steps_witness :
  stepped (trace (raft_loop toy_start).2)
  = stepped (trace toy_start) ++ replicate 45 generative_model.
Proof.
  apply (raft_loop_steps toy_start (raft_loop toy_start).2 toy_logits_shape).
  vm_compute. reflexivity.
Defined.

Lemma cell1_trace_witness :
  ∃ l1 l2 l3 : Z,
    trace (cell1 toy_start).2
    = trace toy_start
        ++ [EvStep reward_model; EvPrint (reward_line 0 l1);
            EvStep reward_model; EvPrint (reward_line 1 l2);
            EvStep reward_model; EvPrint (reward_line 2 l3)]
    ∧ generative (cell1 toy_start).2 = generative toy_start.
Proof.
  apply (cell1_trace toy_start (cell1 toy_start).2). vm_compute. reflexivity.
Defined.

Lemma load_cell_missing_file_witness :
  load_cell (NbWorld toy_net ∅)
  = (Raise (FileNotFoundError "model.pth"), NbWorld toy_net ∅).
Proof. apply (load_cell_missing_file (NbWorld toy_net ∅)). reflexivity. Defined.

Lemma train_loop_schedule_witness :
  ∃ losses : list nat, length losses = 100 / 10
    ∧ train_stdout (train_trace (train_cell toy_train_start).2)
      = train_stdout (train_trace toy_train_start)
          ++ imap (λ i l, progress_line (10 * (Z.of_nat i + 1)) (Z.of_nat 100) l) losses
    ∧ train_steps (train_trace (train_cell toy_train_start).2)
      = train_steps (train_trace toy_train_start) + 100
    ∧ files (notebook (train_cell toy_train_start).2) = files (notebook toy_train_start)
    ∧ net_training (nb_model (notebook (train_cell toy_train_start).2))
      = net_training (nb_model (notebook toy_train_start)).
Proof.
  apply (train_loop_schedule 100 toy_train_start (train_cell toy_train_start).2).
  vm_compute. reflexivity.
Defined.

Example train_cell_lines :
  train_stdout (train_trace (train_cell toy_train_start).2)
  = (λ e, "Epoch [" +:+ pretty e +:+ "/100], Loss: 2")
      <$> [10; 20; 30; 40; 50; 60; 70; 80; 90; 100]%Z.
Proof. vm_compute. reflexivity. Qed.
